(** * RocketryBox back office: realtime dashboard scheduler, admin user
      handlers and the Seller model's default query filter

    A shallow embedding of
    - [src/unnamed/part_000] (the server entry point: the dashboard update
      configuration, the two interval timers, [adjustUpdateInterval] and
      [gracefulShutdown]),
    - [src/unnamed/part_002] (the admin user controller: [getSellerDetails],
      [updateSellerStatus], [getCustomerDetails], [updateCustomerStatus],
      [getRealtimeUserData]),
    - [src/backend/src/modules/seller/models/seller.model.js] (the
      [pre(/^find/)] hook of the Seller schema).

    JavaScript numbers are integers here ([Z]), with [None] for [NaN]; the
    values that occur (seconds and milliseconds) are far below 2^53, where
    the two agree. *)

From Stdlib Require Import ZArith Lia Ascii String.
From stdpp Require Import gmap strings list pretty.

Local Open Scope string_scope.
Local Open Scope Z_scope.

(** ** JavaScript values used by the entry point *)

Module JS.

(** A JavaScript number: [None] is [NaN]. *)
Definition jsnum := option Z.

(** [a * b] on numbers; [NaN] is absorbing. *)
Definition mul (a : jsnum) (b : Z) : jsnum := option_map (fun x => x * b) a.

(** [a / b] for the log line and the health endpoint is not needed by any
    property below and is left out. *)

(** The operand of [parseInt]: a string (an environment variable) or the
    numeric default written in the source. *)
Inductive jsval :=
| JStr (s : string)
| JNum (n : Z).

(** [process.env.X || d]: an unset variable is [undefined], a variable set
    to the empty string is falsy too; any other string is truthy. *)
Definition or_default (v : option string) (d : Z) : jsval :=
  match v with
  | Some s => if String.eqb s "" then JNum d else JStr s
  | None => JNum d
  end.

(** White space skipped by [parseInt] (the ASCII part of it). *)
Definition is_space (c : ascii) : bool :=
  let n := nat_of_ascii c in
  (Nat.eqb n 32 || Nat.eqb n 9 || Nat.eqb n 10 || Nat.eqb n 11
   || Nat.eqb n 12 || Nat.eqb n 13)%bool.

Fixpoint trim_left (s : string) : string :=
  match s with
  | String c s' => if is_space c then trim_left s' else s
  | EmptyString => EmptyString
  end.

(** The value of [c] as a digit of the given radix. *)
Definition digit_val (radix : Z) (c : ascii) : option Z :=
  let n := Z.of_nat (nat_of_ascii c) in
  let d :=
    if (48 <=? n) && (n <=? 57) then Some (n - 48)
    else if (97 <=? n) && (n <=? 122) then Some (n - 87)
    else if (65 <=? n) && (n <=? 90) then Some (n - 55)
    else None in
  match d with
  | Some v => if v <? radix then Some v else None
  | None => None
  end.

(** The longest prefix of digits; [None] when there is none. *)
Fixpoint parse_digits (radix : Z) (s : string) (acc : option Z) : option Z :=
  match s with
  | String c s' =>
      match digit_val radix c with
      | Some d =>
          parse_digits radix s'
            (Some (match acc with Some a => a * radix + d | None => d end))
      | None => acc
      end
  | EmptyString => acc
  end.

(** [parseInt(s)] with no radix argument: leading white space, an optional
    sign, an optional [0x]/[0X] prefix (radix 16, otherwise 10), then the
    longest run of digits; [NaN] when that run is empty. *)
Definition parseInt_string (s : string) : jsnum :=
  let s1 := trim_left s in
  let '(sign, s2) :=
    match s1 with
    | String "-"%char r => (-1, r)
    | String "+"%char r => (1, r)
    | _ => (1, s1)
    end in
  let '(radix, s3) :=
    match s2 with
    | String "0"%char (String x r) =>
        if (Ascii.eqb x "x"%char || Ascii.eqb x "X"%char)%bool then (16, r) else (10, s2)
    | _ => (10, s2)
    end in
  option_map (Z.mul sign) (parse_digits radix s3 None).

(** [parseInt(v)]: a number is converted to its decimal string first, which
    gives the number back for the integer defaults of the source. *)
Definition parseInt (v : jsval) : jsnum :=
  match v with
  | JNum n => Some n
  | JStr s => parseInt_string s
  end.

End JS.

(** ** The dashboard update scheduler ([src/unnamed/part_000]) *)

Module Scheduler.
Import JS.

(** [process.env], restricted to the two variables the configuration reads. *)
Record environment := {
  DASHBOARD_UPDATE_INTERVAL : option string;
  DASHBOARD_LOAD_THRESHOLD : option string
}.

(** [scaleFactor] is the literal [1.5], kept as the fraction [3/2]. *)
Record config := {
  initialInterval : jsnum;
  minInterval : Z;
  maxInterval : Z;
  loadFactorThreshold : jsnum;
  scaleFactor : Z * Z
}.

Definition DASHBOARD_UPDATE_CONFIG (env : environment) : config := {|
  initialInterval :=
    mul (parseInt (or_default (DASHBOARD_UPDATE_INTERVAL env) 30)) 1000;
  minInterval := 10 * 1000;
  maxInterval := 120 * 1000;
  loadFactorThreshold :=
    parseInt (or_default (DASHBOARD_LOAD_THRESHOLD env) 20);
  scaleFactor := (3, 2)
|}.

(** What a timer runs when it fires. *)
Inductive job :=
| Broadcast      (* async () => { await broadcastDashboardUpdates(); } *)
| Reconfigure    (* () => { adjustUpdateInterval(); } *)
| ForceExit.     (* the 10 s setTimeout of gracefulShutdown *)

Record timer := {
  t_handle : nat;
  t_job : job;
  t_delay : jsnum
}.

(** The module-level variables of the entry point and the part of the
    runtime they act on: the timers that are armed, the next timer handle,
    the number of times [broadcastDashboardUpdates] was invoked, and
    whether the process has exited. *)
Record state := {
  dashboardUpdateInterval : jsnum;
  updateIntervalId : option nat;
  timers : list timer;
  next_handle : nat;
  broadcasts : nat;
  exited : bool
}.

Definition armed (h : nat) (j : job) (st : state) : Prop :=
  exists d, {| t_handle := h; t_job := j; t_delay := d |} ∈ timers st.

(** The jobs of the armed timers, in arming order. *)
Definition armed_jobs (st : state) : list job := map t_job (timers st).

(** [setInterval(job, delay)] (and [setTimeout]): arms a timer and returns
    its handle. *)
Definition setInterval (j : job) (delay : jsnum) (st : state) : nat * state :=
  let h := next_handle st in
  (h, {| dashboardUpdateInterval := dashboardUpdateInterval st;
         updateIntervalId := updateIntervalId st;
         timers := timers st ++ [{| t_handle := h; t_job := j; t_delay := delay |}];
         next_handle := S h;
         broadcasts := broadcasts st;
         exited := exited st |}).

(** [clearInterval(h)]: disarms the timer; a handle that is not armed is
    ignored. *)
Definition clearInterval (h : nat) (st : state) : state :=
  {| dashboardUpdateInterval := dashboardUpdateInterval st;
     updateIntervalId := updateIntervalId st;
     timers := List.filter (fun t => negb (Nat.eqb (t_handle t) h)) (timers st);
     next_handle := next_handle st;
     broadcasts := broadcasts st;
     exited := exited st |}.

Definition set_updateIntervalId (h : option nat) (st : state) : state :=
  {| dashboardUpdateInterval := dashboardUpdateInterval st;
     updateIntervalId := h;
     timers := timers st;
     next_handle := next_handle st;
     broadcasts := broadcasts st;
     exited := exited st |}.

Definition set_dashboardUpdateInterval (i : jsnum) (st : state) : state :=
  {| dashboardUpdateInterval := i;
     updateIntervalId := updateIntervalId st;
     timers := timers st;
     next_handle := next_handle st;
     broadcasts := broadcasts st;
     exited := exited st |}.

(** Lines 47-76: the module-level initialisation. *)
Definition start (cfg : config) : state :=
  let st0 := {| dashboardUpdateInterval := initialInterval cfg;
                updateIntervalId := None;
                timers := [];
                next_handle := 0;
                broadcasts := 0;
                exited := false |} in
  let '(h, st1) := setInterval Broadcast (dashboardUpdateInterval st0) st0 in
  let st2 := set_updateIntervalId (Some h) st1 in
  let '(_, st3) := setInterval Reconfigure (Some (5 * 60 * 1000)) st2 in
  st3.

(** Lines 51-66.  The function reads no load signal. *)
Definition adjustUpdateInterval (cfg : config) (st : state) : state :=
  let st1 := set_dashboardUpdateInterval (initialInterval cfg) st in
  let st2 :=
    match updateIntervalId st1 with
    | Some h => clearInterval h st1
    | None => st1
    end in
  let '(h, st3) := setInterval Broadcast (dashboardUpdateInterval st2) st2 in
  set_updateIntervalId (Some h) st3.

(** Lines 270-294, the part that touches timers: the broadcast interval is
    cleared, and a 10 s timeout that forces the exit is armed.  Closing the
    HTTP server and the database connection happens outside this model; the
    exit it leads to is the event [Exit] below. *)
Definition gracefulShutdown (st : state) : state :=
  let st1 :=
    match updateIntervalId st with
    | Some h => clearInterval h st
    | None => st
    end in
  snd (setInterval ForceExit (Some 10000) st1).

Definition exit (st : state) : state :=
  {| dashboardUpdateInterval := dashboardUpdateInterval st;
     updateIntervalId := updateIntervalId st;
     timers := [];
     next_handle := next_handle st;
     broadcasts := broadcasts st;
     exited := true |}.

Definition tick (st : state) : state :=
  {| dashboardUpdateInterval := dashboardUpdateInterval st;
     updateIntervalId := updateIntervalId st;
     timers := timers st;
     next_handle := next_handle st;
     broadcasts := S (broadcasts st);
     exited := exited st |}.

Definition find_timer (h : nat) (st : state) : option timer :=
  List.find (fun t => Nat.eqb (t_handle t) h) (timers st).

(** The event loop fires the timer with handle [h]: nothing happens when it
    is not armed. *)
Definition fire (cfg : config) (h : nat) (st : state) : state :=
  match find_timer h st with
  | None => st
  | Some t =>
      match t_job t with
      | Broadcast => tick st
      | Reconfigure => adjustUpdateInterval cfg st
      | ForceExit => exit st
      end
  end.

(** What can happen to the running process. *)
Inductive event :=
| Fire (h : nat)     (* a timer is due *)
| Signal             (* SIGTERM or SIGINT *)
| Exit.              (* process.exit *)

Definition step (cfg : config) (st : state) (e : event) : state :=
  if exited st then st
  else match e with
       | Fire h => fire cfg h st
       | Signal => gracefulShutdown st
       | Exit => exit st
       end.

Definition run (cfg : config) (es : list event) : state :=
  fold_left (step cfg) es (start cfg).

(** The invariant of the spec's SchedulerState, on the code's variables;
    it is false for [NaN]. *)
Definition within_bounds (cfg : config) (st : state) : Prop :=
  match dashboardUpdateInterval st with
  | Some i => minInterval cfg <= i <= maxInterval cfg
  | None => False
  end.

(** [reconfigure] as the spec words it (section 4.3), for comparison with
    [adjustUpdateInterval]: above the threshold the interval is scaled and
    capped, otherwise it is reset.  [load] is the number of subscribed
    dashboard sessions. *)
Definition reconfigure_spec (cfg : config) (load : Z) (current : jsnum) : jsnum :=
  match loadFactorThreshold cfg, current with
  | Some threshold, Some cur =>
      if threshold <? load
      then Some (Z.min (cur * fst (scaleFactor cfg) / snd (scaleFactor cfg))
                       (maxInterval cfg))
      else initialInterval cfg
  | _, _ => initialInterval cfg
  end.

(** The configuration with no environment variable set. *)
Definition default_environment : environment :=
  {| DASHBOARD_UPDATE_INTERVAL := None; DASHBOARD_LOAD_THRESHOLD := None |}.

Definition default_config : config := DASHBOARD_UPDATE_CONFIG default_environment.

(** Configurations with [DASHBOARD_UPDATE_INTERVAL] set to 5 and to 300
    seconds. *)
Definition short_interval_config : config :=
  DASHBOARD_UPDATE_CONFIG
    {| DASHBOARD_UPDATE_INTERVAL := Some "5"; DASHBOARD_LOAD_THRESHOLD := None |}.

Definition long_interval_config : config :=
  DASHBOARD_UPDATE_CONFIG
    {| DASHBOARD_UPDATE_INTERVAL := Some "300"; DASHBOARD_LOAD_THRESHOLD := None |}.

End Scheduler.

(** ** The admin user controller ([src/unnamed/part_002]) *)

Module Admin.

(** A call either returns or throws an [Error] with a message; for an
    awaited promise, it resolves or rejects. *)
Inductive result (A : Type) :=
| Ok (a : A)
| Thrown (message : string).
Arguments Ok {A} a.
Arguments Thrown {A} message.

Inductive model := Seller | Customer.

Record historyEntry := {
  h_status : string;
  h_reason : string;
  h_updatedBy : string;
  h_timestamp : Z
}.

(** The fields of a seller or customer object that the handlers read or
    write, on a database document and on a realtime profile alike.  An
    absent field is [None]. *)
Record entityData := {
  e_id : string;
  e_status : string;
  e_statusHistory : option (list historyEntry);
  e_documents : option string;
  e_businessName : option string;
  e_gstin : option string;
  e_addresses : option (list string)
}.

Record kycDetails := {
  kyc_status : string;
  kyc_documents : option string;      (* [None] is the [{}] of [documents || {}] *)
  kyc_businessName : option string;
  kyc_gstin : option string
}.

(** An element of the arrays returned by [getRealtimeUserData]. *)
Inductive realtimeItem :=
| Loaded (p : option entityData)
| Placeholder (id : string) (error : string).

(** The [data] of a JSON response. *)
Inductive body :=
| BEntity (m : model) (e : entityData)
| BSellerDetails (seller : entityData) (kyc : kycDetails)
    (agreements rateCards : list string) (isRealtime : bool)
| BCustomerDetails (customer : entityData) (addresses : list string)
    (isRealtime : bool)
| BRealtime (sellers customers : list realtimeItem) (timestamp : Z).

(** What is emitted to a room. *)
Inductive payload :=
| StatusChange (m : model) (id status updatedBy : string) (updatedAt : Z)
| Profile (p : option entityData).

Inductive level := Info | Warn | Error.

(** The observable actions of a handler, in the order they happen. *)
Inductive event :=
| EvFindById (m : model) (id : string)
| EvSave (m : model) (e : entityData)
| EvAgreementFind (id : string)
| EvRateCardFind (id : string)
| EvInvalidateCall (pattern : string)
| EvDeleteAck (pattern : string) (count : nat)
| EvInvalidateReturn (pattern : string)
| EvGetIO
| EvEmit (room eventName : string) (p : payload)
| EvGetProfile (m : model) (id : string)
| EvLog (l : level) (message : string)
| EvRespond (status : Z) (b : body)
| EvNext (message : string) (statusCode : Z).

(** The answer of the cache store to a pattern deletion. *)
Inductive deletion :=
| DelAcked (count : nat)
| DelFailed (message : string).

(** How a call of [invalidateCachePattern] can behave towards its caller. *)
Inductive invalidation :=
| InvSync (r : deletion)       (* returns once the store has answered *)
| InvThrows (message : string) (* throws *)
| InvPromise (count : nat).    (* returns a promise at once; the store
                                  acknowledges on a later turn *)

(** The collaborators of the controller, none of which is among the
    sources: the two Mongoose models, the realtime profile services, the
    cache helper, Socket.IO and the clock.  [profile_load m n id] is the
    outcome of the call of [getSellerProfile]/[getCustomerProfile] that
    comes after [n] earlier profile calls of the request. *)
Record world := {
  db_findById : model -> string -> result (option entityData);
  db_save : model -> entityData -> result unit;
  db_agreements : string -> result (list string);
  db_rateCards : string -> result (list string);
  cache_invalidate : string -> invalidation;
  io_get : result unit;
  io_emit : string -> result unit;
  profile_load : model -> nat -> string -> result (option entityData);
  clock : Z
}.

(** The state a handler threads: what has happened, and the completions of
    calls that were started and not awaited, which can only arrive once the
    handler suspends. *)
Record hstate := {
  trace : list event;
  pending : list event
}.

Definition M (A : Type) : Type := hstate -> result A * hstate.

#[export] Instance M_ret : MRet M := fun A a s => (Ok a, s).
#[export] Instance M_bind : MBind M := fun A B f m s =>
  match m s with
  | (Ok a, s') => f a s'
  | (Thrown msg, s') => (Thrown msg, s')
  end.

Definition throw {A} (msg : string) : M A := fun s => (Thrown msg, s).

(** [try { m } catch (error) { h error.message }] *)
Definition try_catch {A} (m : M A) (h : string -> M A) : M A := fun s =>
  match m s with
  | (Ok a, s') => (Ok a, s')
  | (Thrown msg, s') => h msg s'
  end.

Definition record (e : event) : M unit := fun s =>
  (Ok tt, {| trace := trace s ++ [e]; pending := pending s |}).

Definition defer (e : event) : M unit := fun s =>
  (Ok tt, {| trace := trace s; pending := pending s ++ [e] |}).

Definition lift {A} (r : result A) : M A := fun s => (r, s).

(** [await m]: the call [m] is made, then the handler suspends, which lets
    the outstanding completions arrive, then the outcome of [m] is
    delivered. *)
Definition await {A} (m : M A) : M A := fun s =>
  let '(r, s') := m s in
  (r, {| trace := trace s' ++ pending s'; pending := [] |}).

Definition log (l : level) (message : string) : M unit := record (EvLog l message).

Definition is_profile_call (e : event) : bool :=
  match e with EvGetProfile _ _ => true | _ => false end.

Definition profile_calls (tr : list event) : nat :=
  length (List.filter is_profile_call tr).

Definition getProfile (w : world) (m : model) (id : string) : M (option entityData) :=
  fun s =>
    let n := profile_calls (trace s) in
    (record (EvGetProfile m id) ;; lift (profile_load w m n id)) s.

Definition getSellerProfile (w : world) := getProfile w Seller.
Definition getCustomerProfile (w : world) := getProfile w Customer.

Definition findById (w : world) (m : model) (id : string) : M (option entityData) :=
  record (EvFindById m id) ;; lift (db_findById w m id).

Definition save (w : world) (m : model) (e : entityData) : M unit :=
  record (EvSave m e) ;; lift (db_save w m e).

Definition Agreement_find (w : world) (id : string) : M (list string) :=
  record (EvAgreementFind id) ;; lift (db_agreements w id).

Definition RateCard_find (w : world) (id : string) : M (list string) :=
  record (EvRateCardFind id) ;; lift (db_rateCards w id).

Definition getIO (w : world) : M unit :=
  record EvGetIO ;; lift (io_get w).

(** [io.to(room).emit(eventName, payload)] *)
Definition emit (w : world) (room eventName : string) (p : payload) : M unit :=
  record (EvEmit room eventName p) ;; lift (io_emit w room).

(** Modelled from the spec: [invalidateCachePattern] of [utils/cache.js] is
    not among the sources.  Section 4.1 has it delete every key matching
    the pattern and return only after the cache store has acknowledged,
    a failed delete being logged and swallowed: that is [InvSync].  The
    source wraps the call in a [try] and does not await its result, so the
    two other ways a JavaScript helper can behave are kept beside it: it
    throws, or it hands back a promise whose acknowledgement arrives after
    the caller has suspended. *)
Definition invalidateCachePattern (w : world) (pattern : string) : M unit :=
  record (EvInvalidateCall pattern) ;;
  match cache_invalidate w pattern with
  | InvSync (DelAcked n) =>
      record (EvDeleteAck pattern n) ;; record (EvInvalidateReturn pattern)
  | InvSync (DelFailed msg) =>
      log Error msg ;; record (EvInvalidateReturn pattern)
  | InvThrows msg => throw msg
  | InvPromise n =>
      defer (EvDeleteAck pattern n) ;; record (EvInvalidateReturn pattern)
  end.

Definition respond (status : Z) (b : body) : M unit := record (EvRespond status b).

(** [next(new AppError(message, statusCode))] *)
Definition next (message : string) (statusCode : Z) : M unit :=
  record (EvNext message statusCode).

(** [req], for the routes with an [:id] parameter and a status body;
    [req.user] is set by the authentication middleware. *)
Record request := {
  params_id : string;
  body_status : string;
  body_reason : string;
  user_id : string
}.

Definition set_status (status : string) (e : entityData) : entityData :=
  {| e_id := e_id e; e_status := status; e_statusHistory := e_statusHistory e;
     e_documents := e_documents e; e_businessName := e_businessName e;
     e_gstin := e_gstin e; e_addresses := e_addresses e |}.

Definition set_statusHistory (h : option (list historyEntry)) (e : entityData) : entityData :=
  {| e_id := e_id e; e_status := e_status e; e_statusHistory := h;
     e_documents := e_documents e; e_businessName := e_businessName e;
     e_gstin := e_gstin e; e_addresses := e_addresses e |}.

(** [e.statusHistory.push(entry)] *)
Definition push_statusHistory (entry : historyEntry) (e : entityData) : entityData :=
  set_statusHistory (option_map (fun l => (l ++ [entry])%list) (e_statusHistory e)) e.

(** Lines 115-169. *)
Definition getSellerDetails (w : world) (rq : request) : M unit :=
  try_catch
    (let id := params_id rq in
     sellerProfile ←
       try_catch
         (await (getSellerProfile w id))
         (fun msg =>
            log Warn ("Failed to get seller profile from cache: " +:+ msg) ;;
            mret None);
     seller ←
       match sellerProfile with
       | Some p => mret (Some p)
       | None => await (findById w Seller id)
       end;
     match seller with
     | None => next "Seller not found" 404
     | Some seller =>
         let kyc := {| kyc_status := e_status seller;
                       kyc_documents := e_documents seller;
                       kyc_businessName := e_businessName seller;
                       kyc_gstin := e_gstin seller |} in
         agreements ← await (Agreement_find w id);
         rateCards ← await (RateCard_find w id);
         respond 200
           (BSellerDetails seller kyc agreements rateCards
                           (bool_decide (is_Some sellerProfile)))
     end)
    (fun msg =>
       log Error ("Error in getSellerDetails: " +:+ msg) ;;
       next "Failed to fetch seller details" 500).

(** Lines 176-242. *)
Definition updateSellerStatus (w : world) (rq : request) : M unit :=
  try_catch
    (let id := params_id rq in
     let status := body_status rq in
     let reason := body_reason rq in
     found ← await (findById w Seller id);
     match found with
     | None => next "Seller not found" 404
     | Some seller =>
         let seller := set_status status seller in
         let seller :=
           set_statusHistory (Some (default [] (e_statusHistory seller))) seller in
         let seller :=
           push_statusHistory
             {| h_status := status; h_reason := reason;
                h_updatedBy := user_id rq; h_timestamp := clock w |} seller in
         await (save w Seller seller) ;;
         try_catch
           (invalidateCachePattern w ("seller:" +:+ id +:+ ":*") ;;
            getIO w ;;
            emit w "admin-dashboard" "seller:profile:updated"
              (StatusChange Seller id (e_status seller) (user_id rq) (clock w)) ;;
            p1 ← await (getSellerProfile w id);
            emit w ("admin-seller-" +:+ id) "seller:profile:updated" (Profile p1) ;;
            p2 ← await (getSellerProfile w id);
            emit w ("seller-" +:+ id) "seller:profile:updated" (Profile p2) ;;
            log Info ("Broadcasted seller profile update for " +:+ id))
           (fun msg => log Warn ("Failed to broadcast seller update: " +:+ msg)) ;;
         log Info ("Admin " +:+ user_id rq +:+ " updated seller " +:+ id
                   +:+ " status to " +:+ status) ;;
         respond 200 (BEntity Seller seller)
     end)
    (fun msg =>
       log Error ("Error in updateSellerStatus: " +:+ msg) ;;
       next "Failed to update seller status" 500).

(** Lines 480-522. *)
Definition getCustomerDetails (w : world) (rq : request) : M unit :=
  try_catch
    (let id := params_id rq in
     customerProfile ←
       try_catch
         (await (getCustomerProfile w id))
         (fun msg =>
            log Warn ("Failed to get customer profile from cache: " +:+ msg) ;;
            mret None);
     customer ←
       match customerProfile with
       | Some p => mret (Some p)
       | None => await (findById w Customer id)
       end;
     match customer with
     | None => next "Customer not found" 404
     | Some customer =>
         let addresses :=
           match e_addresses customer with
           | Some l => if (0 <? Z.of_nat (length l)) then l else []
           | None => []
           end in
         respond 200
           (BCustomerDetails customer addresses
                             (bool_decide (is_Some customerProfile)))
     end)
    (fun msg =>
       log Error ("Error in getCustomerDetails: " +:+ msg) ;;
       next "Failed to fetch customer details" 500).

(** Lines 529-598. *)
Definition updateCustomerStatus (w : world) (rq : request) : M unit :=
  try_catch
    (let id := params_id rq in
     let status := body_status rq in
     let reason := body_reason rq in
     found ← await (findById w Customer id);
     match found with
     | None => next "Customer not found" 404
     | Some customer =>
         let customer := set_status status customer in
         let customer :=
           match e_statusHistory customer with
           | None => set_statusHistory (Some []) customer
           | Some _ => customer
           end in
         let customer :=
           push_statusHistory
             {| h_status := status; h_reason := reason;
                h_updatedBy := user_id rq; h_timestamp := clock w |} customer in
         await (save w Customer customer) ;;
         try_catch
           (invalidateCachePattern w ("customer:" +:+ id +:+ ":*") ;;
            getIO w ;;
            emit w "admin-dashboard" "customer:profile:updated"
              (StatusChange Customer id (e_status customer) (user_id rq) (clock w)) ;;
            p1 ← await (getCustomerProfile w id);
            emit w ("admin-customer-" +:+ id) "customer:profile:updated" (Profile p1) ;;
            p2 ← await (getCustomerProfile w id);
            emit w ("customer-" +:+ id) "customer:profile:updated" (Profile p2) ;;
            log Info ("Broadcasted customer profile update for " +:+ id))
           (fun msg => log Warn ("Failed to broadcast customer update: " +:+ msg)) ;;
         log Info ("Admin " +:+ user_id rq +:+ " updated customer " +:+ id
                   +:+ " status to " +:+ status) ;;
         respond 200 (BEntity Customer customer)
     end)
    (fun msg =>
       log Error ("Error in updateCustomerStatus: " +:+ msg) ;;
       next "Failed to update customer status" 500).

(** A field of [req.body] of the realtime route: missing, present and not
    an array (null, a string, a number, a boolean, an object), or an array
    of ids. *)
Inductive bodyField :=
| Absent
| NotArray
| IdArray (ids : list string).

Record realtimeBody := {
  rb_sellerIds : bodyField;
  rb_customerIds : bodyField
}.

(** The default [= []] of the destructuring applies to a missing field
    only. *)
Definition with_default (f : bodyField) : bodyField :=
  match f with
  | Absent => IdArray []
  | _ => f
  end.

(** [Array.isArray] *)
Definition isArray (f : bodyField) : bool :=
  match f with IdArray _ => true | _ => false end.

Definition elements (f : bodyField) : list string :=
  match f with IdArray l => l | _ => [] end.

Definition MAX_IDS : Z := 20.

(** [ids.map(async (id) => { try { return await load(id) } catch ... })]
    followed by [Promise.all]: the results keep the order of the ids. *)
Fixpoint map_profiles (w : world) (m : model) (what : string) (ids : list string)
  : M (list realtimeItem) :=
  match ids with
  | [] => mret []
  | id :: rest =>
      item ←
        try_catch
          (p ← await (getProfile w m id); mret (Loaded p))
          (fun msg =>
             log Warn ("Failed to get real-time " +:+ what +:+ " profile for "
                       +:+ id +:+ ": " +:+ msg) ;;
             mret (Placeholder id "Failed to fetch real-time data"));
      items ← map_profiles w m what rest;
      mret (item :: items)
  end.

(** Lines 605-662. *)
Definition getRealtimeUserData (w : world) (b : realtimeBody) : M unit :=
  try_catch
    (let sellerIds := with_default (rb_sellerIds b) in
     let customerIds := with_default (rb_customerIds b) in
     if negb (isArray sellerIds) || negb (isArray customerIds) then
       next "Invalid input format. sellerIds and customerIds must be arrays" 400
     else if MAX_IDS <? Z.of_nat (length (elements sellerIds))
                        + Z.of_nat (length (elements customerIds)) then
       next ("Too many IDs requested. Maximum " +:+ pretty MAX_IDS
             +:+ " total IDs allowed") 400
     else
       log Info ("Fetching real-time profile data for "
                 +:+ pretty (length (elements sellerIds)) +:+ " sellers and "
                 +:+ pretty (length (elements customerIds)) +:+ " customers") ;;
       sellers ← map_profiles w Seller "seller" (elements sellerIds);
       customers ← map_profiles w Customer "customer" (elements customerIds);
       respond 200 (BRealtime sellers customers (clock w)))
    (fun msg =>
       log Error ("Error in getRealtimeUserData: " +:+ msg) ;;
       next "Failed to fetch real-time user data" 500).

(** Running a handler on a fresh request. *)
Definition run (h : M unit) : list event :=
  trace (snd (h {| trace := []; pending := [] |})).

Definition is_reply (e : event) : bool :=
  match e with EvRespond _ _ | EvNext _ _ => true | _ => false end.

(** What the handler answered: its responses and its calls of [next]. *)
Definition replies (tr : list event) : list event := List.filter is_reply tr.

Definition emitted_room (e : event) : option string :=
  match e with EvEmit room _ _ => Some room | _ => None end.

(** The rooms a publish was attempted to, in order. *)
Definition emitted_rooms (tr : list event) : list string :=
  omap emitted_room tr.

(** Every [b] in the trace has an [a] before it: scanning from the start,
    no [b] is met until an [a] has been. *)
Fixpoint before (a b : event) (tr : list event) : Prop :=
  match tr with
  | [] => True
  | e :: tr' => e <> b /\ (e = a \/ before a b tr')
  end.

(** The array [getRealtimeUserData] returns for a list of ids whose first
    profile call is call number [n] of the request: the profile where the
    call succeeds, a placeholder where it fails. *)
Fixpoint items_for (w : world) (m : model) (n : nat) (ids : list string)
  : list realtimeItem :=
  match ids with
  | [] => []
  | id :: rest =>
      match profile_load w m n id with
      | Ok p => Loaded p
      | Thrown _ => Placeholder id "Failed to fetch real-time data"
      end :: items_for w m (S n) rest
  end.

(** The three rooms an entity update is published to, in the order of the
    three [io.to(...)] calls of the status handlers. *)
Definition seller_rooms (id : string) : list string :=
  ["admin-dashboard"; "admin-seller-" +:+ id; "seller-" +:+ id].

Definition customer_rooms (id : string) : list string :=
  ["admin-dashboard"; "admin-customer-" +:+ id; "customer-" +:+ id].

(** The seller document as [updateSellerStatus] saves it (lines 189-198). *)
Definition saved_seller (w : world) (rq : request) (seller : entityData) : entityData :=
  push_statusHistory
    {| h_status := body_status rq; h_reason := body_reason rq;
       h_updatedBy := user_id rq; h_timestamp := clock w |}
    (set_statusHistory (Some (default [] (e_statusHistory seller)))
       (set_status (body_status rq) seller)).

(** The customer document as [updateCustomerStatus] saves it
    (lines 542-554). *)
Definition saved_customer (w : world) (rq : request) (customer : entityData)
  : entityData :=
  push_statusHistory
    {| h_status := body_status rq; h_reason := body_reason rq;
       h_updatedBy := user_id rq; h_timestamp := clock w |}
    (match e_statusHistory (set_status (body_status rq) customer) with
     | None => set_statusHistory (Some []) (set_status (body_status rq) customer)
     | Some _ => set_status (body_status rq) customer
     end).

(** *** Sample requests and worlds *)

Definition seller42 : entityData :=
  {| e_id := "42"; e_status := "pending"; e_statusHistory := None;
     e_documents := None; e_businessName := Some "Acme"; e_gstin := None;
     e_addresses := None |}.

Definition request42 : request :=
  {| params_id := "42"; body_status := "active"; body_reason := "kyc approved";
     user_id := "admin1" |}.

(** Every collaborator works. *)
Definition healthy : world :=
  {| db_findById := fun _ _ => Ok (Some seller42);
     db_save := fun _ _ => Ok tt;
     db_agreements := fun _ => Ok [];
     db_rateCards := fun _ => Ok [];
     cache_invalidate := fun _ => InvSync (DelAcked 1);
     io_get := Ok tt;
     io_emit := fun _ => Ok tt;
     profile_load := fun _ _ _ => Ok (Some (set_status "active" seller42));
     clock := 1700000000000 |}.

Definition with_profile_load
    (f : model -> nat -> string -> result (option entityData)) (w : world) : world :=
  {| db_findById := db_findById w; db_save := db_save w;
     db_agreements := db_agreements w; db_rateCards := db_rateCards w;
     cache_invalidate := cache_invalidate w; io_get := io_get w;
     io_emit := io_emit w; profile_load := f; clock := clock w |}.

Definition with_cache_invalidate (f : string -> invalidation) (w : world) : world :=
  {| db_findById := db_findById w; db_save := db_save w;
     db_agreements := db_agreements w; db_rateCards := db_rateCards w;
     cache_invalidate := f; io_get := io_get w;
     io_emit := io_emit w; profile_load := profile_load w; clock := clock w |}.

(** The first profile fetch of the request fails, the later ones work. *)
Definition first_fetch_fails : world :=
  with_profile_load
    (fun m n id => match n with
                   | O => Thrown "profile unavailable"
                   | S _ => profile_load healthy m n id
                   end)
    healthy.

(** The profile service fails on every call. *)
Definition loader_down : world :=
  with_profile_load (fun _ _ _ => Thrown "profile unavailable") healthy.

(** The cache helper hands back a promise. *)
Definition promise_cache : world :=
  with_cache_invalidate (fun _ => InvPromise 1) healthy.

Definition with_io_emit (f : string -> result unit) (w : world) : world :=
  {| db_findById := db_findById w; db_save := db_save w;
     db_agreements := db_agreements w; db_rateCards := db_rateCards w;
     cache_invalidate := cache_invalidate w; io_get := io_get w;
     io_emit := f; profile_load := profile_load w; clock := clock w |}.

(** The cache store fails the deletion; the helper logs and swallows it. *)
Definition delete_fails : world :=
  with_cache_invalidate (fun _ => InvSync (DelFailed "redis down")) healthy.

(** The emit to the seller's own room throws; everything else works. *)
Definition self_emit_fails : world :=
  with_io_emit
    (fun room => if String.eqb room "seller-42"
                 then Thrown "transport closed" else Ok tt)
    healthy.

Definition is_emit (e : event) : bool :=
  match e with EvEmit _ _ _ => true | _ => false end.

(** The publishes attempted, in order, each with its room, event name and
    payload. *)
Definition emits (tr : list event) : list event := List.filter is_emit tr.

End Admin.



(** ** The Seller model's default filter
     ([src/backend/src/modules/seller/models/seller.model.js]) *)

Module SellerModel.

(** A stored or queried value. *)
Inductive scalar :=
| SNull
| SBool (b : bool)
| SNum (n : Z)
| SStr (s : string).

#[export] Instance scalar_eq_dec : EqDecision scalar.
Proof. solve_decision. Defined.

(** JavaScript truthiness. *)
Definition truthy (v : scalar) : bool :=
  match v with
  | SNull => false
  | SBool b => b
  | SNum n => negb (n =? 0)
  | SStr s => negb (String.eqb s "")
  end.

(** A document: field name to value; a missing field reads as null. *)
Definition read (d : gmap string scalar) (k : string) : scalar :=
  default SNull (d !! k).

(** What a filter says about one key: a value to equal, [{ $ne: v }], or
    any other operator object or logical operator ([$in], [$regex], [$or],
    ...), read as a test of the document. *)
Inductive condition :=
| CValue (v : scalar)
| CNe (v : scalar)
| COther (p : gmap string scalar -> bool).

(** Truthiness of [this._conditions.k]: objects are truthy. *)
Definition condition_truthy (c : option condition) : bool :=
  match c with
  | None => false
  | Some (CValue v) => truthy v
  | Some (CNe _) | Some (COther _) => true
  end.

Record query := {
  op : string;                            (* 'find', 'findOne', 'countDocuments', ... *)
  _conditions : gmap string condition;
  options : gmap string scalar            (* this.getOptions() *)
}.

(** [this.find({ status: c })] inside the hook: Mongoose merges the filter
    into [_conditions].  The hook calls it only when the current
    [_conditions.status] is falsy (missing, null, or a falsy value), and
    there the merge stores the new condition under [status]. *)
Definition Query_find_status (c : condition) (q : query) : query :=
  {| op := op q;
     _conditions := <["status" := c]> (_conditions q);
     options := options q |}.

(** Lines 54-63: the body of the hook. *)
Definition default_filter (q : query) : query :=
  let skipDefaultFilter :=
    match options q !! "skipDefaultFilter" with
    | Some v => truthy v
    | None => false
    end in
  if negb skipDefaultFilter && negb (condition_truthy (_conditions q !! "status"))
  then Query_find_status (CNe (SStr "suspended")) q
  else q.

(** [sellerSchema.pre(/^find/, ...)]: the hook runs for the operations whose
    name starts with [find]. *)
Definition run_pre_hooks (q : query) : query :=
  if String.prefix "find" (op q) then default_filter q else q.

Definition holds (d : gmap string scalar) (k : string) (c : condition) : bool :=
  match c with
  | CValue v => bool_decide (read d k = v)
  | CNe v => negb (bool_decide (read d k = v))
  | COther p => p d
  end.

(** A document matches a filter when every key's condition holds. *)
Definition matches (conds : gmap string condition) (d : gmap string scalar) : Prop :=
  map_Forall (fun k c => holds d k c = true) conds.

#[export] Instance matches_dec conds d : Decision (matches conds d).
Proof. unfold matches. apply _. Defined.

(** The documents an operation selects from the collection: all matches
    for [find], the first match for the [findOne] family. *)
Definition exec (q : query) (collection : list (gmap string scalar))
  : list (gmap string scalar) :=
  let q' := run_pre_hooks q in
  let found := filter (matches (_conditions q')) collection in
  if String.eqb (op q') "find" then found else take 1 found.

(** A sample collection. *)
Definition sample_sellers : list (gmap string scalar) :=
  [ {[ "name" := SStr "A"; "status" := SStr "active" ]};
    {[ "name" := SStr "B"; "status" := SStr "suspended" ]};
    {[ "name" := SStr "C" ]} ].

End SellerModel.

(** * Properties of the scheduler *)

Section SchedulerFacts.
Import JS Scheduler.

Example parseInt_default : parseInt (or_default None 30) = Some 30.
Proof. reflexivity. Qed.

Example parseInt_decimal : parseInt (or_default (Some "45") 30) = Some 45.
Proof. reflexivity. Qed.

Example parseInt_hex : parseInt (JStr " 0x1f") = Some 31.
Proof. reflexivity. Qed.

Example parseInt_suffix : parseInt (JStr "12.7s") = Some 12.
Proof. reflexivity. Qed.

Example parseInt_nan : parseInt (JStr "fast") = None.
Proof. reflexivity. Qed.

Example default_config_values :
  initialInterval default_config = Some 30000
  /\ minInterval default_config = 10000
  /\ maxInterval default_config = 120000
  /\ loadFactorThreshold default_config = Some 20
  /\ scaleFactor default_config = (3, 2).
Proof. repeat split. Qed.

(** The interval variable is written by [adjustUpdateInterval] only, and
    always with the configured initial interval. *)
Lemma adjustUpdateInterval_interval cfg st :
  dashboardUpdateInterval (adjustUpdateInterval cfg st) = initialInterval cfg.
Proof.
  unfold adjustUpdateInterval. simpl.
  destruct (updateIntervalId st); reflexivity.
Qed.

Lemma gracefulShutdown_interval st :
  dashboardUpdateInterval (gracefulShutdown st) = dashboardUpdateInterval st.
Proof.
  unfold gracefulShutdown. destruct (updateIntervalId st); reflexivity.
Qed.

Lemma fire_interval cfg h st :
  dashboardUpdateInterval st = initialInterval cfg ->
  dashboardUpdateInterval (fire cfg h st) = initialInterval cfg.
Proof.
  intros Hst. unfold fire.
  destruct (find_timer h st) as [t|]; [|exact Hst].
  destruct (t_job t); simpl; try exact Hst.
  apply adjustUpdateInterval_interval.
Qed.

Lemma step_interval cfg st e :
  dashboardUpdateInterval st = initialInterval cfg ->
  dashboardUpdateInterval (step cfg st e) = initialInterval cfg.
Proof.
  intros Hst. unfold step.
  destruct (exited st); [exact Hst|].
  destruct e as [h| |].
  - by apply fire_interval.
  - by rewrite gracefulShutdown_interval.
  - exact Hst.
Qed.

Lemma fold_step_interval cfg es st :
  dashboardUpdateInterval st = initialInterval cfg ->
  dashboardUpdateInterval (fold_left (step cfg) es st) = initialInterval cfg.
Proof.
  revert st. induction es as [|e es IH]; intros st Hst; simpl.
  - exact Hst.
  - apply IH. by apply step_interval.
Qed.

Lemma run_interval cfg es :
  dashboardUpdateInterval (run cfg es) = initialInterval cfg.
Proof. unfold run. by apply fold_step_interval. Qed.

(** When the configured initial interval lies within the bounds, so does
    the current interval in every state the process reaches. *)
Lemma within_bounds_run cfg es i :
  initialInterval cfg = Some i ->
  minInterval cfg <= i <= maxInterval cfg ->
  within_bounds cfg (run cfg es).
Proof.
  intros Hi Hb. unfold within_bounds. by rewrite run_interval, Hi.
Qed.

(** Under normal load the source and the spec's [reconfigure] agree. *)
Lemma adjustUpdateInterval_normal_load cfg st load threshold :
  loadFactorThreshold cfg = Some threshold ->
  load <= threshold ->
  dashboardUpdateInterval (adjustUpdateInterval cfg st)
  = reconfigure_spec cfg load (dashboardUpdateInterval st).
Proof.
  intros Ht Hl. rewrite adjustUpdateInterval_interval.
  unfold reconfigure_spec. rewrite Ht.
  destruct (dashboardUpdateInterval st); [|reflexivity].
  destruct (Z.ltb_spec threshold load); [lia | reflexivity].
Qed.

(** C2, as stated, fails: with the configuration of the claim and 100
    connected administrators (the threshold is 20), the spec's
    [reconfigure] gives 45000 from 30000, while [adjustUpdateInterval]
    leaves the interval at 30000. *)
Lemma adjustUpdateInterval_ignores_high_load :
  loadFactorThreshold default_config = Some 20
  /\ dashboardUpdateInterval (start default_config) = Some 30000
  /\ reconfigure_spec default_config 100
       (dashboardUpdateInterval (start default_config)) = Some 45000
  /\ dashboardUpdateInterval
       (adjustUpdateInterval default_config (start default_config)) = Some 30000
  /\ dashboardUpdateInterval
       (adjustUpdateInterval default_config (start default_config))
     <> reconfigure_spec default_config 100
          (dashboardUpdateInterval (start default_config)).
Proof. repeat split. discriminate. Qed.

(** C2, amended: [adjustUpdateInterval] reads no load signal and sets the
    current interval to the configured initial interval from any state;
    with the configuration of the claim that is 30000, after one
    reconfiguration and after any number of further ones. *)
Theorem adjustUpdateInterval_resets :
  (forall cfg st,
      dashboardUpdateInterval (adjustUpdateInterval cfg st) = initialInterval cfg)
  /\ (forall st,
         dashboardUpdateInterval (adjustUpdateInterval default_config st)
         = Some 30000)
  /\ (forall st,
         dashboardUpdateInterval
           (adjustUpdateInterval default_config
              (adjustUpdateInterval default_config st))
         = Some 30000).
Proof.
  split; [|split]; intros; by rewrite adjustUpdateInterval_interval.
Qed.

(** C4: the code at the failing input.  After the shutdown signal the
    reconfigure timer (handle 1) is still armed; when it fires before the
    process exits, [adjustUpdateInterval] arms a new broadcast timer
    (handle 3), and its tick invokes [broadcastDashboardUpdates]. *)
Theorem gracefulShutdown_leaves_reconfigure_timer cfg :
  armed_jobs (start cfg) = [Broadcast; Reconfigure]
  /\ armed_jobs (run cfg [Signal]) = [Reconfigure; ForceExit]
  /\ armed 1 Reconfigure (run cfg [Signal])
  /\ armed_jobs (run cfg [Signal; Fire 1%nat])
     = [Reconfigure; ForceExit; Broadcast]
  /\ updateIntervalId (run cfg [Signal; Fire 1%nat]) = Some 3%nat
  /\ armed 3 Broadcast (run cfg [Signal; Fire 1%nat])
  /\ broadcasts (run cfg [Signal; Fire 1%nat]) = 0%nat
  /\ broadcasts (run cfg [Signal; Fire 1%nat; Fire 3%nat]) = 1%nat.
Proof.
  repeat split.
  - exists (Some 300000). set_solver.
  - exists (initialInterval cfg). set_solver.
Qed.

(** C7: the code at the failing input.  With
    [DASHBOARD_UPDATE_INTERVAL=5] the interval is 5000 ms, below the
    configured minimum of 10000 ms, at start and after every
    reconfiguration; with [300] it is 300000 ms, above the maximum. *)
Theorem interval_outside_bounds :
  dashboardUpdateInterval (start short_interval_config) = Some 5000
  /\ minInterval short_interval_config = 10000
  /\ ~ within_bounds short_interval_config (start short_interval_config)
  /\ (forall es, ~ within_bounds short_interval_config
                    (run short_interval_config es))
  /\ dashboardUpdateInterval (start long_interval_config) = Some 300000
  /\ maxInterval long_interval_config = 120000
  /\ ~ within_bounds long_interval_config (start long_interval_config).
Proof.
  assert (Hlow : initialInterval short_interval_config = Some 5000)
    by reflexivity.
  assert (Hhigh : initialInterval long_interval_config = Some 300000)
    by reflexivity.
  repeat split.
  - unfold within_bounds.
    change (dashboardUpdateInterval (start short_interval_config))
      with (initialInterval short_interval_config).
    rewrite Hlow. simpl. lia.
  - intros es. unfold within_bounds. rewrite run_interval, Hlow. simpl. lia.
  - unfold within_bounds.
    change (dashboardUpdateInterval (start long_interval_config))
      with (initialInterval long_interval_config).
    rewrite Hhigh. simpl. lia.
Qed.

End SchedulerFacts.

(** * Properties of the admin user controller *)

Section AdminFacts.
Import Admin.

Ltac unfold_handler :=
  unfold run, updateSellerStatus, updateCustomerStatus, getSellerDetails,
    getCustomerDetails, try_catch, await, getSellerProfile, getCustomerProfile,
    getProfile, findById, save, Agreement_find, RateCard_find, getIO, emit,
    invalidateCachePattern, log, respond, next, record, defer, lift, throw,
    mbind, M_bind, mret, M_ret.

Ltac cases := repeat (case_match; simplify_eq/=).

Ltac solve_before :=
  simpl; repeat (split; [discriminate|]; first [ left; reflexivity | right ]);
  try exact I.

Ltac solve_In := simpl; repeat (first [ left; reflexivity | right ]); fail.

(** No event of the list is the given one. *)
Ltac solve_not_In :=
  let H := fresh in
  intros H; simpl in H;
  repeat (destruct H as [H|H]; [discriminate H|]);
  exact H.

(** The first event is not preceded by the second. *)
Ltac refute_before :=
  let H := fresh "Hb" in
  simpl; intros H;
  repeat match type of H with
         | _ /\ _ =>
             let Hne := fresh in
             destruct H as [Hne H]; first [ by apply Hne | clear Hne ]
         | _ \/ _ => destruct H as [H|H]; [discriminate H|]
         end.

(** Splits a statement down to its cases, keeping negations whole and
    dropping a case as soon as its assumption contradicts the run. *)
Ltac walk :=
  repeat match goal with
         | |- ~ _ => idtac
         | |- _ /\ _ => split
         | |- (forall m, _ <> InvThrows m) -> _ =>
             let H := fresh in
             intro H; try (exfalso; eapply H; reflexivity)
         | |- _ = _ -> _ =>
             let H := fresh in
             intro H;
             first [ discriminate H | injection H as H; subst | idtac ]
         | |- forall _, _ => intro
         end.

(** The handler's run, kept aside in [H] while its calls are settled. *)
Ltac unfold_run H :=
  unfold run, updateSellerStatus, updateCustomerStatus, try_catch, await,
    getSellerProfile, getCustomerProfile, getProfile, findById, save, getIO,
    emit, invalidateCachePattern, log, respond, next, record, defer, lift,
    throw, mbind, M_bind, mret, M_ret in H;
  unfold profile_calls in H; simpl in H.

(** Feeds the outcomes assumed for the database into the run in [H]. *)
Ltac feed H :=
  repeat match goal with
         | Hf : db_findById _ _ _ = _ |- _ => rewrite Hf in H; simpl in H
         | Hs : db_save _ _ _ = _ |- _ => rewrite Hs in H; simpl in H
         end.

(** Settles the outcome of the earliest call of the run in [H] that is
    still open, in the order the handler makes them. *)
Ltac next_call H :=
  lazymatch type of H with
  | context [db_findById ?w ?m ?i] =>
      destruct (db_findById w m i) as [[?|]|?] eqn:?
  | context [match e_statusHistory ?c with _ => _ end] =>
      destruct (e_statusHistory c) eqn:?
  | context [db_save ?w ?m ?e] => destruct (db_save w m e) as [[]|?] eqn:?
  | context [cache_invalidate ?w ?p] =>
      destruct (cache_invalidate w p) as [[?|?]|?|?] eqn:?
  | context [io_get ?w] => destruct (io_get w) as [[]|?] eqn:?
  | context [io_emit ?w "admin-dashboard"] =>
      destruct (io_emit w "admin-dashboard") as [[]|?] eqn:?
  | context [profile_load ?w ?m ?n ?i] =>
      destruct (profile_load w m n i) eqn:?
  | context [io_emit ?w ("admin-seller-" +:+ ?i)] =>
      destruct (io_emit w ("admin-seller-" +:+ i)) as [[]|?] eqn:?
  | context [io_emit ?w ("admin-customer-" +:+ ?i)] =>
      destruct (io_emit w ("admin-customer-" +:+ i)) as [[]|?] eqn:?
  | context [io_emit ?w ?r] => destruct (io_emit w r) as [[]|?] eqn:?
  end.

(** An assumption about a call contradicts the outcome settled for it. *)
Ltac absurd_case :=
  exfalso;
  first [ match goal with
          | H : In _ _ |- _ => revert H; solve_not_In
          | H : forall m, _ <> InvThrows m |- _ => by eapply H
          end
        | unfold saved_seller, saved_customer in *; simpl in *;
          repeat (case_match; simplify_eq/=); congruence ].

Ltac close_case :=
  solve [ reflexivity | solve_before | solve_In | solve_not_In
        | refute_before ].

(** The run [tr] of a status handler, one case per outcome of its calls,
    in each of which the trace is a list of events. *)
Ltac run_cases tr :=
  let H := fresh "Htr" in
  unfold saved_seller, saved_customer in *; simpl in *;
  pose proof (eq_refl tr) as H; unfold tr at 2 in H; clearbody tr;
  unfold_run H;
  repeat (feed H; next_call H; simpl in * );
  subst tr.

Ltac by_cases tr := run_cases tr; walk; first [ close_case | absurd_case ].

(** The meaning of [before]: wherever [b] occurs, [a] occurs earlier. *)
Lemma before_split a b tr pre post :
  before a b tr -> tr = (pre ++ b :: post)%list -> In a pre.
Proof.
  revert pre. induction tr as [|e tr IH]; intros pre Hb Heq.
  - by destruct pre.
  - destruct Hb as [Hne Hb].
    destruct pre as [|e' pre]; simpl in Heq; simplify_eq.
    destruct Hb as [->|Hb]; [by left|]. right. by apply IH.
Qed.

Lemma updateSellerStatus_persisted w rq seller :
  db_findById w Seller (params_id rq) = Ok (Some seller) ->
  db_save w Seller (saved_seller w rq seller) = Ok tt ->
  let tr := run (updateSellerStatus w rq) in
  replies tr = [EvRespond 200 (BEntity Seller (saved_seller w rq seller))]
  /\ emitted_rooms tr `prefix_of` seller_rooms (params_id rq)
  /\ ((In (EvLog Info ("Broadcasted seller profile update for " +:+ params_id rq)) tr
       /\ emitted_rooms tr = seller_rooms (params_id rq))
      \/ exists msg,
          In (EvLog Warn ("Failed to broadcast seller update: " +:+ msg)) tr)
  /\ (forall msg,
        profile_load w Seller 0 (params_id rq) = Thrown msg ->
        emitted_rooms tr `prefix_of` ["admin-dashboard"]).
Proof.
  intros Hf Hs tr. run_cases tr.
  all: split; [reflexivity|].
  all: split; [ eexists; reflexivity |].
  all: split;
    [ first [ left; split; [solve_In | reflexivity] | right; eexists; solve_In ] |].
  all: intros msg' Hm; first [ by (eexists; reflexivity) | congruence ].
Qed.

Lemma updateCustomerStatus_persisted w rq customer :
  db_findById w Customer (params_id rq) = Ok (Some customer) ->
  db_save w Customer (saved_customer w rq customer) = Ok tt ->
  let tr := run (updateCustomerStatus w rq) in
  replies tr = [EvRespond 200 (BEntity Customer (saved_customer w rq customer))]
  /\ emitted_rooms tr `prefix_of` customer_rooms (params_id rq)
  /\ ((In (EvLog Info ("Broadcasted customer profile update for " +:+ params_id rq)) tr
       /\ emitted_rooms tr = customer_rooms (params_id rq))
      \/ exists msg,
          In (EvLog Warn ("Failed to broadcast customer update: " +:+ msg)) tr)
  /\ (forall msg,
        profile_load w Customer 0 (params_id rq) = Thrown msg ->
        emitted_rooms tr `prefix_of` ["admin-dashboard"]).
Proof.
  intros Hf Hs tr. run_cases tr.
  all: split; [reflexivity|].
  all: split; [ eexists; reflexivity |].
  all: split;
    [ first [ left; split; [solve_In | reflexivity] | right; eexists; solve_In ] |].
  all: intros msg' Hm; first [ by (eexists; reflexivity) | congruence ].
Qed.

(** C5: once the document is saved, whatever happens in the cache
    invalidation and the broadcast (the helper throws, Socket.IO is not
    initialised, an emit throws, a profile fetch rejects), the status
    handlers answer 200 with the saved entity and never call [next]; the
    broadcast either completed or its failure was logged as a warning. *)
Theorem status_update_answers_200 w rq :
  (forall seller,
      db_findById w Seller (params_id rq) = Ok (Some seller) ->
      db_save w Seller (saved_seller w rq seller) = Ok tt ->
      let tr := run (updateSellerStatus w rq) in
      replies tr = [EvRespond 200 (BEntity Seller (saved_seller w rq seller))]
      /\ (In (EvLog Info ("Broadcasted seller profile update for "
                          +:+ params_id rq)) tr
          \/ exists msg,
              In (EvLog Warn ("Failed to broadcast seller update: " +:+ msg)) tr))
  /\ (forall customer,
        db_findById w Customer (params_id rq) = Ok (Some customer) ->
        db_save w Customer (saved_customer w rq customer) = Ok tt ->
        let tr := run (updateCustomerStatus w rq) in
        replies tr
        = [EvRespond 200 (BEntity Customer (saved_customer w rq customer))]
        /\ (In (EvLog Info ("Broadcasted customer profile update for "
                            +:+ params_id rq)) tr
            \/ exists msg,
                In (EvLog Warn ("Failed to broadcast customer update: "
                                +:+ msg)) tr)).
Proof.
  split.
  - intros seller Hf Hs.
    destruct (updateSellerStatus_persisted w rq seller Hf Hs) as (Hr & _ & Hl & _).
    split; [exact Hr|]. destruct Hl as [[Hi _]|Hw]; [by left | by right].
  - intros customer Hf Hs.
    destruct (updateCustomerStatus_persisted w rq customer Hf Hs)
      as (Hr & _ & Hl & _).
    split; [exact Hr|]. destruct Hl as [[Hi _]|Hw]; [by left | by right].
Qed.

Lemma status_update_answers_200_witness :
  replies (run (updateSellerStatus loader_down request42))
  = [EvRespond 200 (BEntity Seller (saved_seller loader_down request42 seller42))]
  /\ replies (run (updateCustomerStatus loader_down request42))
     = [EvRespond 200
          (BEntity Customer (saved_customer loader_down request42 seller42))].
Proof.
  split.
  - apply (proj1 (status_update_answers_200 loader_down request42) seller42);
      reflexivity.
  - apply (proj2 (status_update_answers_200 loader_down request42) seller42);
      reflexivity.
Defined.


Example healthy_trace :
  run (updateSellerStatus healthy request42)
  = [EvFindById Seller "42";
     EvSave Seller (saved_seller healthy request42 seller42);
     EvInvalidateCall "seller:42:*";
     EvDeleteAck "seller:42:*" 1;
     EvInvalidateReturn "seller:42:*";
     EvGetIO;
     EvEmit "admin-dashboard" "seller:profile:updated"
       (StatusChange Seller "42" "active" "admin1" 1700000000000);
     EvGetProfile Seller "42";
     EvEmit "admin-seller-42" "seller:profile:updated"
       (Profile (Some (set_status "active" seller42)));
     EvGetProfile Seller "42";
     EvEmit "seller-42" "seller:profile:updated"
       (Profile (Some (set_status "active" seller42)));
     EvLog Info "Broadcasted seller profile update for 42";
     EvLog Info "Admin admin1 updated seller 42 status to active";
     EvRespond 200 (BEntity Seller (saved_seller healthy request42 seller42))].
Proof. reflexivity. Qed.

(** C3, as stated, fails: when the profile fetch for the admin-scoped room
    fails, the publish to the self-scoped room is not attempted, although
    its own fetch and emit would have worked; the handler still answers
    200. *)
Lemma broadcast_stops_at_first_failure :
  profile_load first_fetch_fails Seller 0 "42" = Thrown "profile unavailable"
  /\ profile_load first_fetch_fails Seller 1 "42"
     = Ok (Some (set_status "active" seller42))
  /\ io_emit first_fetch_fails "seller-42" = Ok tt
  /\ In "seller-42" (seller_rooms "42")
  /\ emitted_rooms (run (updateSellerStatus first_fetch_fails request42))
     = ["admin-dashboard"]
  /\ ~ In "seller-42"
         (emitted_rooms (run (updateSellerStatus first_fetch_fails request42)))
  /\ replies (run (updateSellerStatus first_fetch_fails request42))
     = [EvRespond 200
          (BEntity Seller (saved_seller first_fetch_fails request42 seller42))].
Proof.
  repeat split.
  - simpl. auto.
  - intros [H|[]]. discriminate H.
Qed.

(** C3, amended: a failure while publishing an entity update never fails
    the mutation, and the targets are not independent.  Once the entity is
    saved the handler answers 200, once.  The cache invalidation, the
    socket server and, for each room in the order dashboard, admin-scoped,
    self-scoped, its profile fetch (none for the dashboard) and its publish
    run inside one try/catch: the first step that throws ends the
    broadcast.  The publishes attempted are exactly those up to that step,
    the throwing publish included and none after it, each with the payload
    fetched for it; a warning carrying the failure's message is logged and
    the success line is not.  So a failure at the self-scoped publish is
    the only one that leaves the two other publishes made; with no failure
    all three are made, the success line is logged and no warning is. *)
Theorem broadcast_failure_skips_later_targets w rq :
  (forall seller,
      db_findById w Seller (params_id rq) = Ok (Some seller) ->
      db_save w Seller (saved_seller w rq seller) = Ok tt ->
      let tr := run (updateSellerStatus w rq) in
      let id := params_id rq in
      let pattern := "seller:" +:+ id +:+ ":*" in
      let dashboard :=
        EvEmit "admin-dashboard" "seller:profile:updated"
          (StatusChange Seller id (body_status rq) (user_id rq) (clock w)) in
      let admin := fun p =>
        EvEmit ("admin-seller-" +:+ id) "seller:profile:updated" (Profile p) in
      let self := fun p =>
        EvEmit ("seller-" +:+ id) "seller:profile:updated" (Profile p) in
      let warned := fun msg =>
        In (EvLog Warn ("Failed to broadcast seller update: " +:+ msg)) tr
        /\ ~ In (EvLog Info ("Broadcasted seller profile update for " +:+ id)) tr in
      replies tr = [EvRespond 200 (BEntity Seller (saved_seller w rq seller))]
      /\ (forall msg, cache_invalidate w pattern = InvThrows msg ->
                      emits tr = [] /\ warned msg)
      /\ ((forall msg, cache_invalidate w pattern <> InvThrows msg) ->
          (forall msg, io_get w = Thrown msg -> emits tr = [] /\ warned msg)
          /\ (io_get w = Ok tt ->
              (forall msg, io_emit w "admin-dashboard" = Thrown msg ->
                           emits tr = [dashboard] /\ warned msg)
              /\ (io_emit w "admin-dashboard" = Ok tt ->
                  (forall msg, profile_load w Seller 0 id = Thrown msg ->
                               emits tr = [dashboard] /\ warned msg)
                  /\ (forall p1, profile_load w Seller 0 id = Ok p1 ->
                      (forall msg, io_emit w ("admin-seller-" +:+ id) = Thrown msg ->
                                   emits tr = [dashboard; admin p1] /\ warned msg)
                      /\ (io_emit w ("admin-seller-" +:+ id) = Ok tt ->
                          (forall msg, profile_load w Seller 1 id = Thrown msg ->
                                       emits tr = [dashboard; admin p1]
                                       /\ warned msg)
                          /\ (forall p2, profile_load w Seller 1 id = Ok p2 ->
                              (forall msg,
                                  io_emit w ("seller-" +:+ id) = Thrown msg ->
                                  emits tr = [dashboard; admin p1; self p2]
                                  /\ warned msg)
                              /\ (io_emit w ("seller-" +:+ id) = Ok tt ->
                                  emits tr = [dashboard; admin p1; self p2]
                                  /\ In (EvLog Info
                                           ("Broadcasted seller profile update for "
                                            +:+ id)) tr
                                  /\ forall msg,
                                      ~ In (EvLog Warn
                                              ("Failed to broadcast seller update: "
                                               +:+ msg)) tr))))))))
  /\ (forall customer,
        db_findById w Customer (params_id rq) = Ok (Some customer) ->
        db_save w Customer (saved_customer w rq customer) = Ok tt ->
        let tr := run (updateCustomerStatus w rq) in
        let id := params_id rq in
        let pattern := "customer:" +:+ id +:+ ":*" in
        let dashboard :=
          EvEmit "admin-dashboard" "customer:profile:updated"
            (StatusChange Customer id (body_status rq) (user_id rq) (clock w)) in
        let admin := fun p =>
          EvEmit ("admin-customer-" +:+ id) "customer:profile:updated" (Profile p) in
        let self := fun p =>
          EvEmit ("customer-" +:+ id) "customer:profile:updated" (Profile p) in
        let warned := fun msg =>
          In (EvLog Warn ("Failed to broadcast customer update: " +:+ msg)) tr
          /\ ~ In (EvLog Info ("Broadcasted customer profile update for " +:+ id)) tr in
        replies tr = [EvRespond 200 (BEntity Customer (saved_customer w rq customer))]
        /\ (forall msg, cache_invalidate w pattern = InvThrows msg ->
                        emits tr = [] /\ warned msg)
        /\ ((forall msg, cache_invalidate w pattern <> InvThrows msg) ->
            (forall msg, io_get w = Thrown msg -> emits tr = [] /\ warned msg)
            /\ (io_get w = Ok tt ->
                (forall msg, io_emit w "admin-dashboard" = Thrown msg ->
                             emits tr = [dashboard] /\ warned msg)
                /\ (io_emit w "admin-dashboard" = Ok tt ->
                    (forall msg, profile_load w Customer 0 id = Thrown msg ->
                                 emits tr = [dashboard] /\ warned msg)
                    /\ (forall p1, profile_load w Customer 0 id = Ok p1 ->
                        (forall msg, io_emit w ("admin-customer-" +:+ id) = Thrown msg ->
                                     emits tr = [dashboard; admin p1] /\ warned msg)
                        /\ (io_emit w ("admin-customer-" +:+ id) = Ok tt ->
                            (forall msg, profile_load w Customer 1 id = Thrown msg ->
                                         emits tr = [dashboard; admin p1]
                                         /\ warned msg)
                            /\ (forall p2, profile_load w Customer 1 id = Ok p2 ->
                                (forall msg,
                                    io_emit w ("customer-" +:+ id) = Thrown msg ->
                                    emits tr = [dashboard; admin p1; self p2]
                                    /\ warned msg)
                                /\ (io_emit w ("customer-" +:+ id) = Ok tt ->
                                    emits tr = [dashboard; admin p1; self p2]
                                    /\ In (EvLog Info
                                             ("Broadcasted customer profile update for "
                                              +:+ id)) tr
                                    /\ forall msg,
                                        ~ In (EvLog Warn
                                                ("Failed to broadcast customer update: "
                                                 +:+ msg)) tr)))))))).
Proof.
  split.
  - intros seller Hf Hs tr id pattern dashboard admin self warned.
    subst id pattern dashboard admin self warned. cbv beta. by_cases tr.
  - intros customer Hf Hs tr id pattern dashboard admin self warned.
    subst id pattern dashboard admin self warned. cbv beta. by_cases tr.
Qed.

Lemma broadcast_failure_skips_later_targets_witness :
  emits (run (updateSellerStatus self_emit_fails request42))
  = [EvEmit "admin-dashboard" "seller:profile:updated"
       (StatusChange Seller "42" "active" "admin1" 1700000000000);
     EvEmit "admin-seller-42" "seller:profile:updated"
       (Profile (Some (set_status "active" seller42)));
     EvEmit "seller-42" "seller:profile:updated"
       (Profile (Some (set_status "active" seller42)))]
  /\ In (EvLog Warn "Failed to broadcast seller update: transport closed")
        (run (updateSellerStatus self_emit_fails request42))
  /\ emits (run (updateCustomerStatus first_fetch_fails request42))
     = [EvEmit "admin-dashboard" "customer:profile:updated"
          (StatusChange Customer "42" "active" "admin1" 1700000000000)].
Proof.
  destruct (proj1 (broadcast_failure_skips_later_targets self_emit_fails request42)
              seller42 eq_refl eq_refl) as (_ & _ & Hs).
  destruct (Hs ltac:(discriminate)) as [_ Hs1].
  destruct (Hs1 eq_refl) as [_ Hs2].
  destruct (Hs2 eq_refl) as [_ Hs3].
  destruct (Hs3 (Some (set_status "active" seller42)) eq_refl) as [_ Hs4].
  destruct (Hs4 eq_refl) as [_ Hs5].
  destruct (Hs5 (Some (set_status "active" seller42)) eq_refl) as [Hs6 _].
  destruct (Hs6 "transport closed" eq_refl) as (Hemits & Hwarn & _).
  destruct (proj2 (broadcast_failure_skips_later_targets first_fetch_fails request42)
              seller42 eq_refl eq_refl) as (_ & _ & Hc).
  destruct (Hc ltac:(discriminate)) as [_ Hc1].
  destruct (Hc1 eq_refl) as [_ Hc2].
  destruct (Hc2 eq_refl) as [Hc3 _].
  destruct (Hc3 "profile unavailable" eq_refl) as [Hcemits _].
  split_and!; [exact Hemits | exact Hwarn | exact Hcemits].
Defined.

Lemma seller_rooms_NoDup id : NoDup (seller_rooms id).
Proof.
  unfold seller_rooms.
  repeat (apply NoDup_cons; split); try apply NoDup_nil_2;
    rewrite ?not_elem_of_cons; repeat split; try apply not_elem_of_nil;
    cbn; discriminate.
Qed.

Lemma customer_rooms_NoDup id : NoDup (customer_rooms id).
Proof.
  unfold customer_rooms.
  repeat (apply NoDup_cons; split); try apply NoDup_nil_2;
    rewrite ?not_elem_of_cons; repeat split; try apply not_elem_of_nil;
    cbn; discriminate.
Qed.


(** C6: when nothing fails, a status change is published to exactly three
    rooms, the dashboard room, the admin-scoped room and the self-scoped
    room of the entity, once each and in this order; the three names are
    pairwise distinct and depend on the entity type and id only. *)
Theorem status_change_targets w rq :
  (forall seller,
      db_findById w Seller (params_id rq) = Ok (Some seller) ->
      db_save w Seller (saved_seller w rq seller) = Ok tt ->
      (forall msg, cache_invalidate w ("seller:" +:+ params_id rq +:+ ":*")
                   <> InvThrows msg) ->
      io_get w = Ok tt ->
      (forall room, io_emit w room = Ok tt) ->
      (forall n, exists p, profile_load w Seller n (params_id rq) = Ok p) ->
      emitted_rooms (run (updateSellerStatus w rq))
      = ["admin-dashboard"; "admin-seller-" +:+ params_id rq;
         "seller-" +:+ params_id rq])
  /\ (forall customer,
        db_findById w Customer (params_id rq) = Ok (Some customer) ->
        db_save w Customer (saved_customer w rq customer) = Ok tt ->
        (forall msg, cache_invalidate w ("customer:" +:+ params_id rq +:+ ":*")
                     <> InvThrows msg) ->
        io_get w = Ok tt ->
        (forall room, io_emit w room = Ok tt) ->
        (forall n, exists p, profile_load w Customer n (params_id rq) = Ok p) ->
        emitted_rooms (run (updateCustomerStatus w rq))
        = ["admin-dashboard"; "admin-customer-" +:+ params_id rq;
           "customer-" +:+ params_id rq])
  /\ NoDup ["admin-dashboard"; "admin-seller-" +:+ params_id rq;
            "seller-" +:+ params_id rq]
  /\ NoDup ["admin-dashboard"; "admin-customer-" +:+ params_id rq;
            "customer-" +:+ params_id rq].
Proof.
  split; [|split; [|split]].
  - intros seller Hf Hs Hc Hio He Hp.
    destruct (Hp 0%nat) as [p0 Hp0]. destruct (Hp 1%nat) as [p1 Hp1].
    unfold saved_seller in *. unfold_handler. simpl.
    rewrite Hf. simpl. rewrite Hs. simpl. rewrite Hio. rewrite !He.
    unfold profile_calls.
    destruct (cache_invalidate w _) as [[k|m]|m|k] eqn:Hk;
      simpl; rewrite ?Hp0; simpl; rewrite ?Hp1; simpl;
      first [ reflexivity | by destruct (Hc m) ].
  - intros customer Hf Hs Hc Hio He Hp.
    destruct (Hp 0%nat) as [p0 Hp0]. destruct (Hp 1%nat) as [p1 Hp1].
    unfold saved_customer in *. unfold_handler. simpl in *.
    rewrite Hf. simpl. rewrite Hs. simpl. rewrite Hio. rewrite !He.
    unfold profile_calls.
    destruct (cache_invalidate w _) as [[k|m]|m|k] eqn:Hk;
      simpl; rewrite ?Hp0; simpl; rewrite ?Hp1; simpl;
      first [ reflexivity | by destruct (Hc m) ].
  - apply seller_rooms_NoDup.
  - apply customer_rooms_NoDup.
Qed.

Lemma status_change_targets_witness :
  emitted_rooms (run (updateSellerStatus healthy request42))
  = ["admin-dashboard"; "admin-seller-42"; "seller-42"]
  /\ emitted_rooms (run (updateCustomerStatus healthy request42))
     = ["admin-dashboard"; "admin-customer-42"; "customer-42"].
Proof.
  split.
  - apply (proj1 (status_change_targets healthy request42) seller42);
      try reflexivity; try discriminate.
    intros n. eexists. reflexivity.
  - apply (proj1 (proj2 (status_change_targets healthy request42)) seller42);
      try reflexivity; try discriminate.
    intros n. eexists. reflexivity.
Defined.

(** C1, amended: in every run of the status handlers the cache helper is
    called for the entity's pattern, and has returned, strictly before
    every profile fetch of the broadcast; when the helper throws, no
    profile is fetched and nothing is published.  The handlers do not
    await the helper, so whether the store's acknowledgement comes before
    the fetch is the helper's doing: when it returns after an acknowledged
    deletion, the acknowledgement comes before its return and before every
    fetch; when the deletion fails and is swallowed, no acknowledgement
    occurs at all; when it returns a promise, every acknowledgement comes
    after a fetch.  And when the document is saved, the helper does not
    throw and Socket.IO answers, the fetch is issued. *)
Theorem invalidation_returns_before_refetch w rq :
  (let tr := run (updateSellerStatus w rq) in
   let id := params_id rq in
   let pattern := "seller:" +:+ id +:+ ":*" in
   let fetch := EvGetProfile Seller id in
   before (EvInvalidateCall pattern) fetch tr
   /\ before (EvInvalidateReturn pattern) fetch tr
   /\ (forall n, cache_invalidate w pattern = InvSync (DelAcked n) ->
                 before (EvDeleteAck pattern n) (EvInvalidateReturn pattern) tr
                 /\ before (EvDeleteAck pattern n) fetch tr)
   /\ (forall msg, cache_invalidate w pattern = InvThrows msg ->
                   ~ In fetch tr /\ emits tr = [])
   /\ (forall msg, cache_invalidate w pattern = InvSync (DelFailed msg) ->
                   forall n, ~ In (EvDeleteAck pattern n) tr)
   /\ (forall n, cache_invalidate w pattern = InvPromise n ->
                 In fetch tr ->
                 before fetch (EvDeleteAck pattern n) tr
                 /\ ~ before (EvDeleteAck pattern n) fetch tr)
   /\ (forall seller,
          db_findById w Seller id = Ok (Some seller) ->
          db_save w Seller (saved_seller w rq seller) = Ok tt ->
          (forall msg, cache_invalidate w pattern <> InvThrows msg) ->
          io_get w = Ok tt ->
          io_emit w "admin-dashboard" = Ok tt ->
          In fetch tr))
  /\ (let tr := run (updateCustomerStatus w rq) in
      let id := params_id rq in
      let pattern := "customer:" +:+ id +:+ ":*" in
      let fetch := EvGetProfile Customer id in
      before (EvInvalidateCall pattern) fetch tr
      /\ before (EvInvalidateReturn pattern) fetch tr
      /\ (forall n, cache_invalidate w pattern = InvSync (DelAcked n) ->
                    before (EvDeleteAck pattern n) (EvInvalidateReturn pattern) tr
                    /\ before (EvDeleteAck pattern n) fetch tr)
      /\ (forall msg, cache_invalidate w pattern = InvThrows msg ->
                      ~ In fetch tr /\ emits tr = [])
      /\ (forall msg, cache_invalidate w pattern = InvSync (DelFailed msg) ->
                      forall n, ~ In (EvDeleteAck pattern n) tr)
      /\ (forall n, cache_invalidate w pattern = InvPromise n ->
                    In fetch tr ->
                    before fetch (EvDeleteAck pattern n) tr
                    /\ ~ before (EvDeleteAck pattern n) fetch tr)
      /\ (forall customer,
             db_findById w Customer id = Ok (Some customer) ->
             db_save w Customer (saved_customer w rq customer) = Ok tt ->
             (forall msg, cache_invalidate w pattern <> InvThrows msg) ->
             io_get w = Ok tt ->
             io_emit w "admin-dashboard" = Ok tt ->
             In fetch tr)).
Proof.
  split.
  - intros tr id pattern fetch. subst id pattern fetch. cbv beta. by_cases tr.
  - intros tr id pattern fetch. subst id pattern fetch. cbv beta. by_cases tr.
Qed.

Lemma invalidation_returns_before_refetch_witness :
  before (EvDeleteAck "seller:42:*" 1) (EvGetProfile Seller "42")
    (run (updateSellerStatus healthy request42))
  /\ In (EvGetProfile Seller "42") (run (updateSellerStatus healthy request42))
  /\ before (EvDeleteAck "customer:42:*" 1) (EvGetProfile Customer "42")
       (run (updateCustomerStatus healthy request42))
  /\ In (EvGetProfile Customer "42")
        (run (updateCustomerStatus healthy request42)).
Proof.
  destruct (invalidation_returns_before_refetch healthy request42)
    as [(_ & _ & Hs & _ & _ & _ & Hsf) (_ & _ & Hc & _ & _ & _ & Hcf)].
  split_and!.
  - exact (proj2 (Hs 1%nat eq_refl)).
  - apply (Hsf seller42); try reflexivity. discriminate.
  - exact (proj2 (Hc 1%nat eq_refl)).
  - apply (Hcf seller42); try reflexivity. discriminate.
Defined.

(** C1, as stated, fails: the helper is allowed to swallow a failed
    deletion.  It then returns with nothing acknowledged, and the handler
    goes on to fetch the profile and publish it to the seller's room. *)
Lemma failed_deletion_is_followed_by_refetch :
  let tr := run (updateSellerStatus delete_fails request42) in
  cache_invalidate delete_fails "seller:42:*" = InvSync (DelFailed "redis down")
  /\ In (EvInvalidateReturn "seller:42:*") tr
  /\ In (EvGetProfile Seller "42") tr
  /\ (forall n, ~ In (EvDeleteAck "seller:42:*" n) tr)
  /\ (forall n, ~ before (EvDeleteAck "seller:42:*" n)
                          (EvGetProfile Seller "42") tr)
  /\ In (EvEmit "seller-42" "seller:profile:updated"
           (Profile (Some (set_status "active" seller42)))) tr
  /\ replies tr
     = [EvRespond 200
          (BEntity Seller (saved_seller delete_fails request42 seller42))].
Proof.
  intros tr. subst tr. split_and!.
  - reflexivity.
  - solve_In.
  - solve_In.
  - intros n. solve_not_In.
  - intros n. refute_before.
  - solve_In.
  - reflexivity.
Qed.

Example promise_cache_trace :
  run (updateSellerStatus promise_cache request42)
  = [EvFindById Seller "42";
     EvSave Seller (saved_seller promise_cache request42 seller42);
     EvInvalidateCall "seller:42:*";
     EvInvalidateReturn "seller:42:*";
     EvGetIO;
     EvEmit "admin-dashboard" "seller:profile:updated"
       (StatusChange Seller "42" "active" "admin1" 1700000000000);
     EvGetProfile Seller "42";
     EvDeleteAck "seller:42:*" 1;
     EvEmit "admin-seller-42" "seller:profile:updated"
       (Profile (Some (set_status "active" seller42)));
     EvGetProfile Seller "42";
     EvEmit "seller-42" "seller:profile:updated"
       (Profile (Some (set_status "active" seller42)));
     EvLog Info "Broadcasted seller profile update for 42";
     EvLog Info "Admin admin1 updated seller 42 status to active";
     EvRespond 200
       (BEntity Seller (saved_seller promise_cache request42 seller42))].
Proof. reflexivity. Qed.

(** The same call when the helper hands back a promise, which the source
    does not await: the acknowledgement arrives after the first profile
    fetch has been issued. *)
Lemma unawaited_promise_acknowledged_after_refetch :
  let tr := run (updateSellerStatus promise_cache request42) in
  before (EvInvalidateReturn "seller:42:*") (EvGetProfile Seller "42") tr
  /\ In (EvDeleteAck "seller:42:*" 1) tr
  /\ before (EvGetProfile Seller "42") (EvDeleteAck "seller:42:*" 1) tr
  /\ ~ before (EvDeleteAck "seller:42:*" 1) (EvGetProfile Seller "42") tr.
Proof.
  intros tr. subst tr. rewrite promise_cache_trace.
  split; [solve_before|]. split; [solve_In|]. split; [solve_before|].
  simpl. intros H.
  repeat (destruct H as [Hne H]; first [ by apply Hne
          | destruct H as [H|H]; [discriminate H|]; clear Hne ]).
Qed.


(** C8: when the profile service fails, the detail handlers log a warning
    and query the database; when the database has the entity (and, for a
    seller, the agreement and rate card queries answer) the response is 200
    with that entity and [isRealtime = false]. *)
Theorem details_fall_back_to_database w rq msg :
  (profile_load w Seller 0 (params_id rq) = Thrown msg ->
   let tr := run (getSellerDetails w rq) in
   In (EvLog Warn ("Failed to get seller profile from cache: " +:+ msg)) tr
   /\ In (EvFindById Seller (params_id rq)) tr
   /\ before (EvGetProfile Seller (params_id rq))
             (EvFindById Seller (params_id rq)) tr
   /\ (forall seller agreements rateCards,
         db_findById w Seller (params_id rq) = Ok (Some seller) ->
         db_agreements w (params_id rq) = Ok agreements ->
         db_rateCards w (params_id rq) = Ok rateCards ->
         replies tr
         = [EvRespond 200
              (BSellerDetails seller
                 {| kyc_status := e_status seller;
                    kyc_documents := e_documents seller;
                    kyc_businessName := e_businessName seller;
                    kyc_gstin := e_gstin seller |}
                 agreements rateCards false)]))
  /\ (profile_load w Customer 0 (params_id rq) = Thrown msg ->
      let tr := run (getCustomerDetails w rq) in
      In (EvLog Warn ("Failed to get customer profile from cache: " +:+ msg)) tr
      /\ In (EvFindById Customer (params_id rq)) tr
      /\ before (EvGetProfile Customer (params_id rq))
                (EvFindById Customer (params_id rq)) tr
      /\ (forall customer,
            db_findById w Customer (params_id rq) = Ok (Some customer) ->
            replies tr
            = [EvRespond 200
                 (BCustomerDetails customer (default [] (e_addresses customer))
                    false)])).
Proof.
  split.
  - intros Hp tr. subst tr.
    split; [|split; [|split]].
    1-3: unfold_handler; unfold profile_calls; simpl; rewrite Hp; simpl; cases;
      first [ solve_In | solve_before ].
    intros seller ags rcs Hf Ha Hr.
    unfold_handler. unfold profile_calls. simpl. rewrite Hp. simpl.
    rewrite Hf. simpl. rewrite Ha. simpl. rewrite Hr. reflexivity.
  - intros Hp tr. subst tr.
    split; [|split; [|split]].
    1-3: unfold_handler; unfold profile_calls; simpl; rewrite Hp; simpl; cases;
      first [ solve_In | solve_before ].
    intros customer Hf.
    unfold_handler. unfold profile_calls. simpl. rewrite Hp. simpl.
    rewrite Hf. simpl.
    destruct (e_addresses customer) as [[|a l]|]; reflexivity.
Qed.

Lemma details_fall_back_to_database_witness :
  replies (run (getSellerDetails loader_down request42))
  = [EvRespond 200
       (BSellerDetails seller42
          {| kyc_status := "pending"; kyc_documents := None;
             kyc_businessName := Some "Acme"; kyc_gstin := None |}
          [] [] false)]
  /\ replies (run (getCustomerDetails loader_down request42))
     = [EvRespond 200 (BCustomerDetails seller42 [] false)].
Proof.
  destruct (details_fall_back_to_database loader_down request42
              "profile unavailable") as [Hs Hc].
  destruct (Hs eq_refl) as (_ & _ & _ & Hseller).
  destruct (Hc eq_refl) as (_ & _ & _ & Hcustomer).
  split.
  - apply (Hseller seller42 [] []); reflexivity.
  - apply (Hcustomer seller42); reflexivity.
Defined.

Lemma replies_app tr1 tr2 : replies (tr1 ++ tr2) = (replies tr1 ++ replies tr2)%list.
Proof. apply List.filter_app. Qed.

Lemma profile_calls_app tr1 tr2 :
  profile_calls (tr1 ++ tr2) = (profile_calls tr1 + profile_calls tr2)%nat.
Proof. unfold profile_calls. by rewrite List.filter_app, length_app. Qed.

(** [map_profiles] never throws: it returns one element per id, makes one
    profile call per id and answers nothing itself. *)
Lemma map_profiles_spec w m what ids :
  forall s, pending s = [] ->
    exists s',
      map_profiles w m what ids s
      = (Ok (items_for w m (profile_calls (trace s)) ids), s')
      /\ pending s' = []
      /\ replies (trace s') = replies (trace s)
      /\ profile_calls (trace s')
         = (profile_calls (trace s) + length ids)%nat.
Proof.
  induction ids as [|id rest IH]; intros s Hs.
  - exists s. simpl. repeat split; [done | lia].
  - simpl.
    unfold mbind, M_bind, try_catch, await, getProfile, log, record, lift,
      mret, M_ret. simpl. rewrite Hs.
    destruct (profile_load w m (profile_calls (trace s)) id) as [p|msg]; simpl.
    + destruct (IH {| trace := (trace s ++ [EvGetProfile m id]) ++ [];
                      pending := [] |} eq_refl)
        as (s' & Hrun & Hpend & Hrep & Hcalls).
      rewrite Hrun. exists s'. simpl in *.
      rewrite ?app_nil_r, ?replies_app, ?profile_calls_app in *.
      change (profile_calls [EvGetProfile m id]) with 1%nat in *.
      simpl in Hrep. rewrite ?app_nil_r, Nat.add_1_r in *.
      repeat split; [done | done | lia].
    + destruct (IH {| trace := ((trace s ++ [EvGetProfile m id]) ++ []) ++
                        [EvLog Warn ("Failed to get real-time " +:+ what
                                     +:+ " profile for " +:+ id +:+ ": " +:+ msg)];
                      pending := [] |} eq_refl)
        as (s' & Hrun & Hpend & Hrep & Hcalls).
      rewrite Hrun. exists s'. simpl in *.
      rewrite ?app_nil_r, ?replies_app, ?profile_calls_app in *.
      change (profile_calls [EvGetProfile m id]) with 1%nat in *.
      change (profile_calls [EvLog _ _]) with 0%nat in *.
      simpl in Hrep. rewrite ?app_nil_r, ?Nat.add_0_r, Nat.add_1_r in *.
      repeat split; [done | done | lia].
Qed.

Lemma items_for_length w m n ids : length (items_for w m n ids) = length ids.
Proof. revert n. induction ids as [|id rest IH]; intros n; simpl; [done|by rewrite IH]. Qed.

Lemma items_for_lookup w m n ids k id :
  ids !! k = Some id ->
  items_for w m n ids !! k
  = Some (match profile_load w m (n + k) id with
          | Ok p => Loaded p
          | Thrown _ => Placeholder id "Failed to fetch real-time data"
          end).
Proof.
  revert n k. induction ids as [|i rest IH]; intros n k Hk; [done|].
  destruct k as [|k]; simpl in *.
  - simplify_eq. by rewrite Nat.add_0_r.
  - rewrite (IH (S n) k Hk). by rewrite Nat.add_succ_r.
Qed.


(** C9: [getRealtimeUserData] answers 400 through [next], before any
    profile is fetched, when [sellerIds] or [customerIds] is not an array
    or when more than 20 ids are requested in total; otherwise it answers
    200 with one element per id, in order: the profile where the fetch
    succeeded, the placeholder [{id, error}] where it failed. *)
Theorem getRealtimeUserData_limits w b :
  let sellerIds := with_default (rb_sellerIds b) in
  let customerIds := with_default (rb_customerIds b) in
  let total := Z.of_nat (length (elements sellerIds))
               + Z.of_nat (length (elements customerIds)) in
  (isArray sellerIds = false \/ isArray customerIds = false ->
   run (getRealtimeUserData w b)
   = [EvNext "Invalid input format. sellerIds and customerIds must be arrays" 400])
  /\ (isArray sellerIds = true -> isArray customerIds = true -> 20 < total ->
      run (getRealtimeUserData w b)
      = [EvNext "Too many IDs requested. Maximum 20 total IDs allowed" 400])
  /\ (isArray sellerIds = true -> isArray customerIds = true -> total <= 20 ->
      replies (run (getRealtimeUserData w b))
      = [EvRespond 200
           (BRealtime
              (items_for w Seller 0 (elements sellerIds))
              (items_for w Customer (length (elements sellerIds))
                 (elements customerIds))
              (clock w))]).
Proof.
  intros sellerIds customerIds total.
  split; [|split].
  - intros Hbad. unfold run, getRealtimeUserData, try_catch.
    fold sellerIds customerIds.
    assert (negb (isArray sellerIds) || negb (isArray customerIds) = true) as ->
      by (destruct Hbad as [-> | ->]; [done | by rewrite orb_true_r]).
    reflexivity.
  - intros Hs Hc Hmany. unfold run, getRealtimeUserData, try_catch.
    fold sellerIds customerIds. rewrite Hs, Hc. simpl.
    fold total. unfold MAX_IDS.
    destruct (Z.ltb_spec 20 total); [reflexivity | lia].
  - intros Hs Hc Hfew. unfold run, getRealtimeUserData, try_catch.
    fold sellerIds customerIds. rewrite Hs, Hc. simpl.
    fold total. unfold MAX_IDS.
    destruct (Z.ltb_spec 20 total); [lia|].
    unfold mbind, M_bind, log, record. cbn [trace pending app].
    match goal with
    | |- context [map_profiles w Seller "seller" _ ?s] =>
        destruct (map_profiles_spec w Seller "seller" (elements sellerIds) s eq_refl)
          as (s1 & -> & Hp1 & Hr1 & Hc1)
    end.
    destruct (map_profiles_spec w Customer "customer" (elements customerIds) s1 Hp1)
      as (s2 & -> & Hp2 & Hr2 & Hc2).
    unfold respond, record. cbn [trace snd].
    rewrite replies_app, Hr2, Hr1. cbn [trace] in *. 
    change (profile_calls [EvLog _ _]) with 0%nat in *.
    rewrite Hc1. reflexivity.
Qed.

Lemma getRealtimeUserData_limits_witness :
  run (getRealtimeUserData loader_down
         {| rb_sellerIds := NotArray; rb_customerIds := Absent |})
  = [EvNext "Invalid input format. sellerIds and customerIds must be arrays" 400]
  /\ run (getRealtimeUserData loader_down
            {| rb_sellerIds := IdArray (replicate 11 "s");
               rb_customerIds := IdArray (replicate 10 "c") |})
     = [EvNext "Too many IDs requested. Maximum 20 total IDs allowed" 400]
  /\ replies (run (getRealtimeUserData first_fetch_fails
                     {| rb_sellerIds := IdArray ["7"; "8"];
                        rb_customerIds := Absent |}))
     = [EvRespond 200
          (BRealtime
             [Placeholder "7" "Failed to fetch real-time data";
              Loaded (Some (set_status "active" seller42))]
             [] 1700000000000)].
Proof.
  split; [|split].
  - apply (proj1 (getRealtimeUserData_limits loader_down
                    {| rb_sellerIds := NotArray; rb_customerIds := Absent |})).
    left. reflexivity.
  - apply (proj1 (proj2 (getRealtimeUserData_limits loader_down
                    {| rb_sellerIds := IdArray (replicate 11 "s");
                       rb_customerIds := IdArray (replicate 10 "c") |})));
      [reflexivity | reflexivity | simpl; lia].
  - apply (proj2 (proj2 (getRealtimeUserData_limits first_fetch_fails
                    {| rb_sellerIds := IdArray ["7"; "8"];
                       rb_customerIds := Absent |})));
      [reflexivity | reflexivity | simpl; lia].
Defined.

End AdminFacts.


(** * Properties of the Seller model's default filter *)

Section SellerModelFacts.
Import SellerModel.

Lemma exec_matches q coll d :
  d ∈ exec q coll -> matches (_conditions (run_pre_hooks q)) d.
Proof.
  unfold exec. intros Hd.
  assert (d ∈ filter (matches (_conditions (run_pre_hooks q))) coll) as Hf.
  { destruct (String.eqb _ _); [done|]. by eapply subseteq_take. }
  by apply list_elem_of_filter in Hf as [? _].
Qed.

(** The hook's own test: a falsy [skipDefaultFilter] and a falsy status
    condition. *)
Lemma falsy_status_excludes_suspended q coll d :
  String.prefix "find" (op q) = true ->
  match options q !! "skipDefaultFilter" with
  | Some v => truthy v
  | None => false
  end = false ->
  condition_truthy (_conditions q !! "status") = false ->
  d ∈ exec q coll ->
  read d "status" <> SStr "suspended".
Proof.
  intros Hop Hskip Hstatus Hd. apply exec_matches in Hd.
  unfold run_pre_hooks in Hd. rewrite Hop in Hd.
  unfold default_filter in Hd. rewrite Hskip, Hstatus in Hd. simpl in Hd.
  apply map_Forall_insert_1_1 in Hd. simpl in Hd.
  intros Heq. rewrite Heq in Hd. by rewrite bool_decide_eq_true_2 in Hd.
Qed.

(** C10: a find-family query on the Seller model that has no status
    condition and no [skipDefaultFilter] option never selects a seller
    whose status is ['suspended']. *)
Theorem default_filter_excludes_suspended q coll d :
  String.prefix "find" (op q) = true ->
  _conditions q !! "status" = None ->
  options q !! "skipDefaultFilter" = None ->
  d ∈ exec q coll ->
  read d "status" <> SStr "suspended".
Proof.
  intros Hop Hstatus Hskip.
  apply falsy_status_excludes_suspended; [done | | ].
  - by rewrite Hskip.
  - by rewrite Hstatus.
Qed.

Lemma default_filter_excludes_suspended_witness :
  read {[ "name" := SStr "A"; "status" := SStr "active" ]} "status"
  <> SStr "suspended".
Proof.
  apply (default_filter_excludes_suspended
           {| op := "findOne"; _conditions := ∅; options := ∅ |}
           sample_sellers).
  - reflexivity.
  - reflexivity.
  - reflexivity.
  - vm_compute. left.
Defined.

Example find_all_default :
  exec {| op := "find"; _conditions := ∅; options := ∅ |} sample_sellers
  = [ {[ "name" := SStr "A"; "status" := SStr "active" ]};
      {[ "name" := SStr "C" ]} ].
Proof. vm_compute. reflexivity. Qed.

Example find_suspended_explicitly :
  exec {| op := "find";
          _conditions := {[ "status" := CValue (SStr "suspended") ]};
          options := ∅ |} sample_sellers
  = [ {[ "name" := SStr "B"; "status" := SStr "suspended" ]} ].
Proof. vm_compute. reflexivity. Qed.

Example find_skipDefaultFilter :
  exec {| op := "find"; _conditions := ∅;
          options := {[ "skipDefaultFilter" := SBool true ]} |} sample_sellers
  = sample_sellers.
Proof. vm_compute. reflexivity. Qed.

Example countDocuments_not_hooked :
  run_pre_hooks {| op := "countDocuments"; _conditions := ∅; options := ∅ |}
  = {| op := "countDocuments"; _conditions := ∅; options := ∅ |}.
Proof. reflexivity. Qed.

End SellerModelFacts.
